(** * Lexury storefront backend: cart, order and review handlers

    A shallow embedding of the Express/Mongoose request handlers of
    [backend/routes/orders.js], the cart routes, the review routes and the
    [Review] model hooks, over an explicit document store.

    Conventions of the embedding:
    - an [ObjectId] is the string that [toString()] yields for it;
    - a price, a price modifier or a total is a binary64 [float], the
      [Number] the handlers compute with, and its arithmetic is IEEE 754;
    - stock levels and quantities are integer-valued Numbers, held as [Z]
      and converted to binary64 where they meet a price; the ratings of the
      review aggregate are exact rationals ([Q], compared with [==]);
    - a value read from [req.body] that the validators let through as a
      number or as a numeric string is a [BodyNumber];
    - a handler is a function from the store and the request to the new store
      and the response; an exception or a rejected [save()] that reaches
      [next(error)] is the response [Fail 500] of the error middleware. *)

From Stdlib Require Import ZArith QArith Qround Qabs String Ascii List Lia Lqa.
From Stdlib Require Import Floats DecimalString.
From stdpp Require Import gmap strings list fin_maps.
Import ListNotations.

Local Open Scope string_scope.
Local Open Scope list_scope.
Local Open Scope Z_scope.

#[local] Set Warnings "-inexact-float".

(** ** Numbers *)

(** An integer-valued Number as the binary64 it is: the nearest double
    (exact below 2^53). *)
Definition Number_ofZ (z : Z) : float :=
  SF2Prim (binary_normalize prec emax z 0 false).

(** [x || 0] on a Number: [0], [-0] and [NaN] are falsy. *)
Definition orZero (x : float) : float :=
  if (is_nan x || (x =? 0)%float)%bool then 0%float else x.

(** A number field of [req.body]: a JSON number, or a string (every field
    of a urlencoded body is one). *)
Inductive BodyNumber : Type :=
| NumberValue (n : Z)
| StringValue (s : string).

Definition isDigit (c : ascii) : bool :=
  ((48 <=? N_of_ascii c) && (N_of_ascii c <=? 57))%N.

(** The value of a string of decimal digits, read after [acc]. *)
Fixpoint digitsValue (acc : Z) (s : string) : option Z :=
  match s with
  | EmptyString => Some acc
  | String c s' =>
      if isDigit c
      then digitsValue (10 * acc + (Z.of_N (N_of_ascii c) - 48)) s'
      else None
  end.

(** [Number(s)] for a string made of an optional sign and decimal digits,
    the strings [isInt()] lets through and their concatenations with a
    rendered integer; [None] is [NaN]. *)
Definition Number_ofString (s : string) : option Z :=
  match s with
  | EmptyString => None
  | String "+" EmptyString | String "-" EmptyString => None
  | String "+" s' => digitsValue 0 s'
  | String "-" s' => Z.opp <$> digitsValue 0 s'
  | _ => digitsValue 0 s
  end.

(** The number a body value stands for in a comparison or when Mongoose
    casts it to a Number path; [None] when it is not one. *)
Definition toNumber (v : BodyNumber) : option Z :=
  match v with
  | NumberValue n => Some n
  | StringValue s => Number_ofString s
  end.

(** express-validator's [isInt({ min })], which tests the value's string
    form and converts nothing: the number behind a value that passes. *)
Definition isInt (min : Z) (v : BodyNumber) : option Z :=
  match toNumber v with
  | Some n => if min <=? n then Some n else None
  | None => None
  end.

(** [String(n)] for an integer-valued Number. *)
Definition Number_toString (n : Z) : string :=
  NilZero.string_of_int (Z.to_int n).

(** [q += v] on a Number path of a document: number addition when [v] is a
    number; string concatenation when [v] is a string, after which Mongoose
    casts the result back to a Number or, when it is [NaN], records the
    CastError that makes [save()] reject ([None]). *)
Definition plusAssign (q : Z) (v : BodyNumber) : option Z :=
  match v with
  | NumberValue n => Some (q + n)
  | StringValue s => Number_ofString (Number_toString q ++ s)
  end.

(** ** Documents *)

(** [product.merchant] as the status handler may find it: a populated user
    document, a plain string, or a bare ObjectId. *)
Inductive MerchantRef : Type :=
| MerchantDoc (_id : string)
| MerchantString (s : string)
| MerchantObjectId (oid : string).

(** models/Product.js, the fields the handlers touch. *)
Record Product : Type := mkProduct {
  name : string;
  price : float;
  stock : Z;
  merchant : option MerchantRef;
  rating : Q;
  reviewCount : Z
}.

Definition setStock (p : Product) (s : Z) : Product :=
  mkProduct (name p) (price p) s (merchant p) (rating p) (reviewCount p).

Definition setRating (r : Q) (n : Z) (p : Product) : Product :=
  mkProduct (name p) (price p) (stock p) (merchant p) r n.

(** A variant document, as [populate('items.variant')] yields it. *)
Record Variant : Type := mkVariant {
  variantId : string;
  priceModifier : option float
}.

(** What a handler finds in [item.variant] of a line that has one: the bare
    reference the cart document stores, or the document a populate put in
    its place. Only a document has a [priceModifier]. *)
Inductive VariantValue : Type :=
| VariantRef (id : string)
| VariantDoc (v : Variant).

(** Modelled from the spec: the Cart schema (models/Cart.js), one cart per
    user holding line items of a product reference, a quantity and an
    optional variant reference; every line item is a subdocument with its
    own id. *)
Record CartItem : Type := mkCartItem {
  itemId : string;
  product : string;
  quantity : Z;
  variant : option string
}.

(** A line item after [populate('items.product')]: the reference is replaced
    by the product document (with its [_id]), or by [null] when the product
    is gone. *)
Record PopulatedItem : Type := mkPopulatedItem {
  p_product : option (string * Product);
  p_quantity : Z;
  p_variant : option VariantValue
}.

(** An entry of [orderItems] in POST /api/orders. *)
Record OrderItem : Type := mkOrderItem {
  oi_product : string;
  oi_quantity : Z;
  oi_variant : option VariantValue;
  oi_price : float
}.

(** Modelled from the spec: the Order schema (models/Order.js), the fields
    the order routes compute or rewrite. *)
Record Order : Type := mkOrder {
  o_user : string;
  o_items : list OrderItem;
  o_status : string;
  o_subtotal : float;
  o_discount : float;
  o_shipping : float;
  o_tax : float;
  o_total : float;
  o_trackingNumber : option string
}.
Definition setStatus (s : string) (o : Order) : Order :=
  mkOrder (o_user o) (o_items o) s (o_subtotal o) (o_discount o)
          (o_shipping o) (o_tax o) (o_total o) (o_trackingNumber o).

Definition setTracking (t : option string) (o : Order) : Order :=
  mkOrder (o_user o) (o_items o) (o_status o) (o_subtotal o) (o_discount o)
          (o_shipping o) (o_tax o) (o_total o)
          (match t with Some _ => t | None => o_trackingNumber o end).

(** The Review schema. *)
Record Review : Type := mkReview {
  r_id : string;
  r_product : string;
  r_user : string;
  r_rating : Z;
  r_comment : string
}.

(** Modelled from the spec: the roles of the User schema (models/User.js). *)
Inductive Role : Type := RoleUser | RoleMerchant | RoleAdmin.

(** [req.user] as the [protect] middleware attaches it. *)
Record User : Type := mkUser {
  u_id : string;
  role : Role
}.

(** The document store. *)
Record Db : Type := mkDb {
  products : gmap string Product;
  carts : gmap string (list CartItem);
  orders : gmap string Order;
  reviews : list Review
}.

Definition withProducts (ps : gmap string Product) (db : Db) : Db :=
  mkDb ps (carts db) (orders db) (reviews db).
Definition withCarts (cs : gmap string (list CartItem)) (db : Db) : Db :=
  mkDb (products db) cs (orders db) (reviews db).
Definition withOrders (os : gmap string Order) (db : Db) : Db :=
  mkDb (products db) (carts db) os (reviews db).
Definition withReviews (rs : list Review) (db : Db) : Db :=
  mkDb (products db) (carts db) (orders db) rs.

(** The response envelope: [success: true] with a status and the data, or
    [success: false] with a status and the message. *)
Inductive Response (A : Type) : Type :=
| Ok (status : Z) (data : A)
| Fail (status : Z) (message : string).
Arguments Ok {A} status data.
Arguments Fail {A} status message.

Definition statusOf {A} (r : Response A) : Z :=
  match r with Ok s _ => s | Fail s _ => s end.

Definition isOk {A} (r : Response A) : bool :=
  match r with Ok _ _ => true | Fail _ _ => false end.

(** ** Totals *)

(** [item.variant?.priceModifier || 0]: a missing variant, a bare reference
    and a document without modifier all give [0]. *)
Definition variantModifier (v : option VariantValue) : float :=
  match v with
  | Some (VariantDoc w) =>
      match priceModifier w with
      | Some m => orZero m
      | None => 0%float
      end
  | Some (VariantRef _) => 0%float
  | None => 0%float
  end.

Record Totals : Type := mkTotals {
  t_subtotal : float;
  t_discount : float;
  t_shipping : float;
  t_tax : float;
  t_total : float
}.

(** The four lines shared by GET /api/cart and POST /api/orders:
    [discount = 0], [shipping = subtotal >= 100 ? 0 : 9.99],
    [tax = subtotal * 0.08], [total = subtotal + shipping + tax]. *)
Definition totalsOf (subtotal : float) : Totals :=
  let discount := 0%float in
  let shipping := if (100 <=? subtotal)%float then 0%float else 9.99%float in
  let tax := (subtotal * 0.08)%float in
  let total := (subtotal + shipping + tax)%float in
  mkTotals subtotal discount shipping tax total.

(** ** Array helpers *)

(** [Array.prototype.findIndex]; [None] stands for [-1]. *)
Fixpoint findIndex {A} (f : A -> bool) (l : list A) : option nat :=
  match l with
  | [] => None
  | x :: l' => if f x then Some 0%nat else S <$> findIndex f l'
  end.

(** JavaScript truthiness of an optional string: [undefined] and the empty
    string are falsy. *)
Definition truthy (v : option string) : bool :=
  match v with
  | Some s => negb (String.eqb s "")
  | None => false
  end.

(** [populate('items.product')] on a line item: the variant stays the bare
    reference the cart document holds. *)
Definition populateProduct (ps : gmap string Product) (it : CartItem)
    : PopulatedItem :=
  mkPopulatedItem
    ((fun p => (product it, p)) <$> ps !! product it)
    (quantity it)
    (VariantRef <$> variant it).

(** ** Cart routes *)

Section CartRoutes.

(** The variant document [populate('items.variant')] finds for a reference,
    if any; the collection it reads is fixed by the Cart schema, which is
    not part of the routes. *)
Variable populateVariant : string -> option Variant.

(** [populate('items.variant')] after [populate('items.product')]: a
    reference without document becomes [null]. *)
Definition populateItem (ps : gmap string Product) (it : CartItem)
    : PopulatedItem :=
  mkPopulatedItem
    (p_product (populateProduct ps it))
    (quantity it)
    (variant it ≫= (fun id => VariantDoc <$> populateVariant id)).

(** The helper [calculateCartTotals]: the running [subtotal] of the
    [forEach]; [None] when [item.product] is [null] and reading its
    [price] throws. *)
Fixpoint calculateCartTotalsFrom (subtotal : float) (items : list PopulatedItem)
    : option float :=
  match items with
  | [] => Some subtotal
  | item :: rest =>
      match p_product item with
      | None => None
      | Some (_, p) =>
          let unitPrice := (price p + variantModifier (p_variant item))%float in
          calculateCartTotalsFrom
            (subtotal + unitPrice * Number_ofZ (p_quantity item))%float rest
      end
  end.

Definition calculateCartTotals (items : list PopulatedItem) : option float :=
  calculateCartTotalsFrom 0%float items.

(** GET /api/cart *)
Definition getCart (db : Db) (u : User)
    : Db * Response (list PopulatedItem * Totals) :=
  let '(db, items) :=
    match carts db !! u_id u with
    | Some items => (db, items)
    | None => (withCarts (<[u_id u := []]> (carts db)) db, [])
    end in
  let populated := map (populateItem (products db)) items in
  match calculateCartTotals populated with
  | None => (db, Fail 500 "TypeError")
  | Some subtotal => (db, Ok 200 (populated, totalsOf subtotal))
  end.

(** The body of POST /api/cart/items. *)
Record AddItemBody : Type := mkAddItemBody {
  productId : string;
  b_quantity : BodyNumber;
  b_variant : option string
}.

(** The predicate handed to [findIndex] by POST /api/cart/items:
    [item.product.toString() === productId &&
     (!variant || item.variant?.toString() === variant)]. *)
Definition sameLine (pid : string) (v : option string) (item : CartItem)
    : bool :=
  String.eqb (product item) pid &&
  (negb (truthy v) ||
   match variant item, v with
   | Some w, Some s => String.eqb w s
   | _, _ => false
   end).

(** [item.quantity += quantity]; [None] when the result does not cast. *)
Definition addQuantity (v : BodyNumber) (item : CartItem) : option CartItem :=
  (fun q => mkCartItem (itemId item) (product item) q (variant item))
    <$> plusAssign (quantity item) v.

(** [item.quantity = q], with [q] the number the assigned value casts to. *)
Definition setQuantity (q : Z) (item : CartItem) : CartItem :=
  mkCartItem (itemId item) (product item) q (variant item).

(** The merge-or-push step of POST /api/cart/items on [cart.items];
    [newId] is the id given to a pushed subdocument and [n] the number the
    body's quantity casts to when it is pushed. [None] when the merged
    quantity does not cast, so that [cart.save()] rejects. *)
Definition mergeOrPush (newId : string) (body : AddItemBody) (n : Z)
    (items : list CartItem) : option (list CartItem) :=
  match findIndex (sameLine (productId body) (b_variant body)) items with
  | Some existingItemIndex =>
      match items !! existingItemIndex ≫= addQuantity (b_quantity body) with
      | Some item => Some (<[existingItemIndex := item]> items)
      | None => None
      end
  | None =>
      Some (items ++ [mkCartItem newId (productId body) n
                        (if truthy (b_variant body) then b_variant body
                         else None)])
  end.

(** POST /api/cart/items *)
Definition addCartItem (newId : string) (db : Db) (u : User)
    (body : AddItemBody) : Db * Response (list PopulatedItem) :=
  match (if String.eqb (productId body) "" then None
         else isInt 1 (b_quantity body)) with
  | None => (db, Fail 400 "Validation error")
  | Some n =>
      match products db !! productId body with
      | None => (db, Fail 404 "Product not found")
      | Some p =>
          if stock p <? n then
            (db, Fail 400 "Insufficient stock")
          else
            let items := default [] (carts db !! u_id u) in
            match mergeOrPush newId body n items with
            | None => (db, Fail 500 "Cart validation failed")
            | Some items' =>
                let db' := withCarts (<[u_id u := items']> (carts db)) db in
                (db', Ok 200 (map (populateItem (products db')) items'))
            end
      end
  end.


End CartRoutes.
(** ** Auth middleware *)

Definition Role_eqb (a b : Role) : bool :=
  match a, b with
  | RoleUser, RoleUser | RoleMerchant, RoleMerchant | RoleAdmin, RoleAdmin => true
  | _, _ => false
  end.

(** Modelled from the spec: the [authorize(...roles)] middleware of
    middleware/auth.js, which lets the request through when
    [user.role ∈ allowedRoles] and answers 403 otherwise. *)
Definition authorize (allowedRoles : list Role) (u : User) : bool :=
  existsb (Role_eqb (role u)) allowedRoles.

(** ** Order routes *)

(** The outcome of the [for (const item of cart.items)] loop of
    POST /api/orders: it runs to the end, or the handler returns from inside
    it; either way the products saved so far stay saved. *)
Inductive LoopResult : Type :=
| Completed (ps : gmap string Product) (subtotal : float) (orderItems : list OrderItem)
| Returned (ps : gmap string Product) (status : Z) (message : string).

Fixpoint orderLoop (items : list PopulatedItem) (ps : gmap string Product)
    (subtotal : float) (orderItems : list OrderItem) : LoopResult :=
  match items with
  | [] => Completed ps subtotal orderItems
  | item :: rest =>
      match p_product item with
      | None => Returned ps 500 "TypeError"
      | Some (pid, _) =>
          match ps !! pid with
          | None => Returned ps 404 ("Product " ++ pid ++ " not found")
          | Some product =>
              if stock product <? p_quantity item then
                Returned ps 400 ("Insufficient stock for " ++ name product)
              else
                (* const price = product.price + (item.variant?.priceModifier || 0) *)
                let unitPrice := (price product + variantModifier (p_variant item))%float in
                orderLoop rest
                  (<[pid := setStock product (stock product - p_quantity item)]> ps)
                  (subtotal + unitPrice * Number_ofZ (p_quantity item))%float
                  (* orderItems.push({ ..., price: product.price }) *)
                  (orderItems ++
                     [mkOrderItem pid (p_quantity item) (p_variant item)
                        (price product)])
          end
      end
  end.

(** The body of POST /api/orders, as far as its validators look at it. *)
Record OrderBody : Type := mkOrderBody {
  shippingAddressIsObject : bool;
  paymentMethod : string
}.

(** POST /api/orders; [newId] is the [_id] that [Order.create] assigns. A new
    order starts in the schema's default status, [pending]. *)
Definition createOrder (newId : string) (db : Db) (u : User) (body : OrderBody)
    : Db * Response Order :=
  if negb (shippingAddressIsObject body) || String.eqb (paymentMethod body) "" then
    (db, Fail 400 "Validation error")
  else
    match carts db !! u_id u with
    | None => (db, Fail 400 "Cart is empty")
    | Some [] => (db, Fail 400 "Cart is empty")
    | Some items =>
        match orderLoop (map (populateProduct (products db)) items)
                (products db) 0%float [] with
        | Returned ps status message =>
            (withProducts ps db, Fail status message)
        | Completed ps subtotal orderItems =>
            let t := totalsOf subtotal in
            let order :=
              mkOrder (u_id u) orderItems "pending" (t_subtotal t)
                (t_discount t) (t_shipping t) (t_tax t) (t_total t) None in
            (mkDb ps (<[u_id u := []]> (carts db))
               (<[newId := order]> (orders db)) (reviews db),
             Ok 201 order)
        end
    end.

(** [['cancelled', 'delivered', 'shipped'].includes(order.status)] *)
Definition notCancellable (status : string) : bool :=
  existsb (String.eqb status) ["cancelled"; "delivered"; "shipped"].

(** One turn of the stock-restoring loop of the cancel route. *)
Definition restoreStock (ps : gmap string Product) (item : OrderItem)
    : gmap string Product :=
  match ps !! oi_product item with
  | Some product =>
      <[oi_product item := setStock product (stock product + oi_quantity item)]> ps
  | None => ps
  end.

(** PUT /api/orders/:id/cancel *)
Definition cancelOrder (db : Db) (u : User) (id : string)
    : Db * Response Order :=
  match orders db !! id with
  | None => (db, Fail 404 "Order not found")
  | Some order =>
      if negb (String.eqb (o_user order) (u_id u)) then
        (db, Fail 403 "Not authorized to cancel this order")
      else if notCancellable (o_status order) then
        (db, Fail 400 ("Cannot cancel order with status: " ++ o_status order))
      else
        let ps := fold_left restoreStock (o_items order) (products db) in
        let order' := setStatus "cancelled" order in
        (mkDb ps (carts db) (<[id := order']> (orders db)) (reviews db),
         Ok 200 order')
  end.

(** The list given to [body('status').isIn(...)]. *)
Definition orderStatuses : list string :=
  ["pending"; "confirmed"; "processing"; "shipped"; "delivered"; "cancelled";
   "returned"].

Definition validStatus (s : string) : bool :=
  existsb (String.eqb s) orderStatuses.

(** The body of PUT /api/orders/:id/status. *)
Record StatusBody : Type := mkStatusBody {
  b_status : string;
  b_trackingNumber : option string
}.

(** [productMerchantId] of the ownership scan: [null] when the product has
    no (truthy) merchant. *)
Definition productMerchantId (p : Product) : option string :=
  match merchant p with
  | None => None
  | Some (MerchantDoc _id) => Some _id
  | Some (MerchantString s) => if String.eqb s "" then None else Some s
  | Some (MerchantObjectId oid) => Some oid
  end.

(** The callback of [order.items.some(...)], on an item whose product has
    been populated from [ps]. *)
Definition isMerchantItem (ps : gmap string Product) (merchantId : string)
    (item : OrderItem) : bool :=
  match ps !! oi_product item with
  | None => false
  | Some product =>
      match productMerchantId product with
      | Some m => String.eqb m merchantId
      | None => false
      end
  end.

Definition hasMerchantProduct (ps : gmap string Product) (merchantId : string)
    (order : Order) : bool :=
  existsb (isMerchantItem ps merchantId) (o_items order).

(** PUT /api/orders/:id/status, behind [authorize('admin', 'merchant')]. *)
Definition updateOrderStatus (db : Db) (u : User) (id : string)
    (body : StatusBody) : Db * Response Order :=
  if negb (authorize [RoleAdmin; RoleMerchant] u) then
    (db, Fail 403 "Not authorized")
  else if negb (validStatus (b_status body)) then
    (db, Fail 400 "Validation error")
  else
    match orders db !! id with
    | None => (db, Fail 404 "Order not found")
    | Some order =>
        if Role_eqb (role u) RoleMerchant &&
           negb (hasMerchantProduct (products db) (u_id u) order) then
          (db, Fail 403 "Not authorized to update this order")
        else
          let order' :=
            setTracking
              (if truthy (b_trackingNumber body) then b_trackingNumber body else None)
              (setStatus (b_status body) order) in
          (withOrders (<[id := order']> (orders db)) db, Ok 200 order')
    end.

(** ** Review model and routes *)

(** [Math.round]: the nearest integer, halves going up. *)
Definition Math_round (x : Q) : Z := Qfloor (x + (1 # 2)).

(** [Model.findByIdAndUpdate(productId, { rating, reviewCount })] on the
    product collection: nothing happens when the product is absent. *)
Definition findByIdAndUpdateRating (productId : string) (r : Q) (n : Z)
    (ps : gmap string Product) : gmap string Product :=
  alter (setRating r n) productId ps.

(** [Review.find({ product: productId })] *)
Definition reviewsOf (productId : string) (rs : list Review) : list Review :=
  List.filter (fun r => String.eqb (r_product r) productId) rs.

(** [reviews.reduce((sum, review) => sum + review.rating, 0)] *)
Definition totalRating (rs : list Review) : Z :=
  fold_left (fun sum review => sum + r_rating review) rs 0.

(** The statics method [updateProductRating] of the Review schema. *)
Definition updateProductRating (productId : string) (db : Db) : Db :=
  let found := reviewsOf productId (reviews db) in
  if (length found =? 0)%nat then
    withProducts (findByIdAndUpdateRating productId 0%Q 0 (products db)) db
  else
    let averageRating :=
      (inject_Z (totalRating found) / inject_Z (Z.of_nat (length found)))%Q in
    let count := Z.of_nat (length found) in
    withProducts
      (findByIdAndUpdateRating productId
         (inject_Z (Math_round (averageRating * 10)) / 10)%Q count (products db))
      db.

(** [reviewSchema.post('save', ...)]: runs after a review document has been
    written by [Review.create] or [review.save()]. *)
Definition postSave (this : Review) (db : Db) : Db :=
  updateProductRating (r_product this) db.

(** [reviewSchema.post('findOneAndDelete', ...)]: runs after
    [Review.findByIdAndDelete]; [doc] is the deleted document, if any. *)
Definition postFindOneAndDelete (doc : option Review) (db : Db) : Db :=
  match doc with
  | Some d => updateProductRating (r_product d) db
  | None => db
  end.

(** The body of POST /api/reviews. *)
Record ReviewBody : Type := mkReviewBody {
  rb_productId : string;
  rb_rating : Z;
  rb_comment : option string
}.

(** [Review.findOne({ product, user })] *)
Definition findReview (productId userId : string) (rs : list Review)
    : option Review :=
  List.find (fun r => String.eqb (r_product r) productId &&
                      String.eqb (r_user r) userId) rs.

(** POST /api/reviews; [newId] is the [_id] given by [Review.create]. *)
Definition createReview (newId : string) (db : Db) (u : User)
    (body : ReviewBody) : Db * Response Review :=
  if String.eqb (rb_productId body) "" ||
     negb ((1 <=? rb_rating body) && (rb_rating body <=? 5)) then
    (db, Fail 400 "Validation error")
  else
    match products db !! rb_productId body with
    | None => (db, Fail 404 "Product not found")
    | Some _ =>
        match findReview (rb_productId body) (u_id u) (reviews db) with
        | Some _ => (db, Fail 400 "You have already reviewed this product")
        | None =>
            let review :=
              mkReview newId (rb_productId body) (u_id u) (rb_rating body)
                (default "" (rb_comment body)) in
            (postSave review (withReviews (reviews db ++ [review]) db),
             Ok 201 review)
        end
    end.

(** The body of PUT /api/reviews/:id: both fields are optional. *)
Record ReviewUpdate : Type := mkReviewUpdate {
  ru_rating : option Z;
  ru_comment : option string
}.

(** [if (req.body.rating) review.rating = req.body.rating;
     if (req.body.comment !== undefined) review.comment = req.body.comment] *)
Definition applyUpdate (body : ReviewUpdate) (r : Review) : Review :=
  mkReview (r_id r) (r_product r) (r_user r)
    (match ru_rating body with
     | Some n => if n =? 0 then r_rating r else n
     | None => r_rating r
     end)
    (default (r_comment r) (ru_comment body)).

(** PUT /api/reviews/:id *)
Definition updateReview (db : Db) (u : User) (id : string)
    (body : ReviewUpdate) : Db * Response Review :=
  if match ru_rating body with
     | Some n => negb ((1 <=? n) && (n <=? 5))
     | None => false
     end then
    (db, Fail 400 "Validation error")
  else
    match findIndex (fun r => String.eqb (r_id r) id) (reviews db) with
    | None => (db, Fail 404 "Review not found")
    | Some i =>
        match reviews db !! i with
        | None => (db, Fail 404 "Review not found")
        | Some review =>
            if negb (String.eqb (r_user review) (u_id u)) then
              (db, Fail 403 "Not authorized to update this review")
            else
              let review' := applyUpdate body review in
              (postSave review'
                 (withReviews (<[i := review']> (reviews db)) db),
               Ok 200 review')
        end
    end.

(** PUT /api/reviews/:id's sibling, DELETE /api/reviews/:id. The response
    carries no data. *)
Definition deleteReview (db : Db) (u : User) (id : string)
    : Db * Response unit :=
  match findIndex (fun r => String.eqb (r_id r) id) (reviews db) with
  | None => (db, Fail 404 "Review not found")
  | Some i =>
      match reviews db !! i with
      | None => (db, Fail 404 "Review not found")
      | Some review =>
          if negb (String.eqb (r_user review) (u_id u)) then
            (db, Fail 403 "Not authorized to delete this review")
          else
            (postFindOneAndDelete (Some review)
               (withReviews (delete i (reviews db)) db),
             Ok 200 tt)
      end
  end.

(** * Specification-side definitions *)

(** ** Totals (GET /api/cart and POST /api/orders) *)

(** The price modifier of a cart line's variant, as the spec reads it: the
    [priceModifier] of the variant document the line refers to; nothing is
    added for a line without variant or a variant without modifier. *)
Definition spec_priceModifier (variants : string → option Variant)
    (it : CartItem) : float :=
  match variant it with
  | Some id =>
      match variants id with
      | Some w => default 0%float (priceModifier w)
      | None => 0%float
      end
  | None => 0%float
  end.

(** The spec's per-line amount: (product price + variant priceModifier)
    times quantity. *)
Definition spec_lineTotal (ps : gmap string Product)
    (variants : string → option Variant) (it : CartItem) : float :=
  match ps !! product it with
  | Some p =>
      ((price p + spec_priceModifier variants it) * Number_ofZ (quantity it))%float
  | None => 0%float
  end.

(** The spec's subtotal: the line amounts added up in cart order. *)
Definition spec_subtotal (ps : gmap string Product)
    (variants : string → option Variant) (items : list CartItem) : float :=
  fold_left (λ acc it, (acc + spec_lineTotal ps variants it)%float) items 0%float.

(** The spec's formulas for the derived totals. *)
Definition spec_totals (subtotal : float) (t : Totals) : Prop :=
  t_subtotal t = subtotal ∧
  t_discount t = 0%float ∧
  t_shipping t = (if (100 <=? subtotal)%float then 0 else 9.99)%float ∧
  t_tax t = (0.08 * (subtotal - t_discount t))%float ∧
  t_total t = (subtotal - t_discount t + t_shipping t + t_tax t)%float.

Definition orderTotals (o : Order) : Totals :=
  mkTotals (o_subtotal o) (o_discount o) (o_shipping o) (o_tax o) (o_total o).

(** A price modifier that [x || 0] leaves as it is: a number other
    than [-0]. *)
Definition plainModifier (m : float) : Prop :=
  is_nan m = false ∧ m ≠ (-0)%float.

(** ** Order creation *)

(** A line asks for more than the stock the loop will find. *)
Definition exceedsStock (ps : gmap string Product) (item : PopulatedItem)
    : Prop :=
  ∃ pid p0 p, p_product item = Some (pid, p0) ∧ ps !! pid = Some p ∧
              stock p < p_quantity item.

(** ** Cancellation and status updates *)

(** The quantity an order records for a product: the sum over its items
    that reference it. *)
Definition orderedQuantity (pid : string) (items : list OrderItem) : Z :=
  fold_right
    (λ item acc, if String.eqb (oi_product item) pid
                 then oi_quantity item + acc else acc)
    0 items.

(** The id a [merchant] field stands for. *)
Definition merchantIdOf (m : MerchantRef) : string :=
  match m with
  | MerchantDoc i => i
  | MerchantString s => s
  | MerchantObjectId o => o
  end.

(** No item of the order references a product of the merchant [mid]. *)
Definition noProductOf (ps : gmap string Product) (mid : string) (o : Order)
    : Prop :=
  ∀ item p m, In item (o_items o) → ps !! oi_product item = Some p →
              merchant p = Some m → merchantIdOf m ≠ mid.

(** ** Cart lines *)

(** The (product, variant) pair a stored line stands for. *)
Definition lineKey (item : CartItem) : string * option string :=
  (product item, variant item).

(** The (productId, variant) pair a POST /api/cart/items body names; a falsy
    variant names the variant-less pair. *)
Definition requestKey (pid : string) (v : option string)
    : string * option string :=
  (pid, if truthy v then v else None).

(** The lines of a cart that stand for a given pair, and their quantity. *)
Definition linesOf (k : string * option string) (items : list CartItem)
    : list CartItem :=
  List.filter (λ item, bool_decide (lineKey item = k)) items.

Definition quantityOf (k : string * option string) (items : list CartItem) : Z :=
  fold_right (λ item acc, quantity item + acc) 0 (linesOf k items).

(** The first line of a cart for a product, whatever its variant. *)
Definition firstLineOf (pid : string) (items : list CartItem)
    : option CartItem :=
  List.find (λ item, bool_decide (product item = pid)) items.

(** The request carries a variant, or the first line of the cart for the
    product, if there is one, carries none. *)
Definition firstLineAgrees (pid : string) (v : option string)
    (items : list CartItem) : Prop :=
  truthy v = true ∨
  ∀ line, firstLineOf pid items = Some line → variant line = None.

(** ** Review aggregate *)

(** The ratings of the reviews stored for a product. *)
Fixpoint spec_ratings (pid : string) (rs : list Review) : list Z :=
  match rs with
  | [] => []
  | r :: rs' =>
      if decide (r_product r = pid) then r_rating r :: spec_ratings pid rs'
      else spec_ratings pid rs'
  end.

(** The spec's mean of a non-empty list of ratings. *)
Definition spec_mean (ratings : list Z) : Q :=
  (inject_Z (fold_right Z.add 0%Z ratings)
   / inject_Z (Z.of_nat (length ratings)))%Q.

(** [r] is [x] rounded to one decimal place, halves going up: the whole
    number of tenths in the interval (x - 0.05, x + 0.05]. *)
Definition roundedTo1 (r x : Q) : Prop :=
  ∃ k : Z, (r == inject_Z k / 10)%Q ∧
           (x - (1 # 20) < r)%Q ∧ (r <= x + (1 # 20))%Q.

(** The product [pid], if it exists, carries the aggregate of the reviews
    now stored for it. *)
Definition ratingRecomputed (pid : string) (db : Db) : Prop :=
  ∀ p, products db !! pid = Some p →
       let ratings := spec_ratings pid (reviews db) in
       reviewCount p = Z.of_nat (length ratings) ∧
       (ratings = [] → rating p = 0%Q) ∧
       (ratings ≠ [] → roundedTo1 (rating p) (spec_mean ratings)).

(** * Sample stores *)

Definition ex_alice : User := mkUser "u1" RoleUser.
Definition ex_bob : User := mkUser "u2" RoleUser.
Definition ex_merchant : User := mkUser "m1" RoleMerchant.
Definition ex_admin : User := mkUser "a1" RoleAdmin.

(** One product priced 50 and a cart holding two of it. *)
Definition ex_fifty : Product := mkProduct "Scarf" 50 5 None 0 0.
Definition ex_cartFifty : CartItem := mkCartItem "i1" "P" 2 None.
Definition ex_dbFifty : Db :=
  mkDb {["P" := ex_fifty]} {["u1" := [ex_cartFifty]]} ∅ [].
Definition ex_orderBody : OrderBody := mkOrderBody true "card".

(** Two products; the second cart line asks for more than is in stock. *)
Definition ex_dbShort : Db :=
  mkDb {["A" := mkProduct "Belt" 10 5 None 0 0;
        "B" := mkProduct "Watch" 20 2 None 0 0]}
       {["u1" := [mkCartItem "i1" "A" 1 None; mkCartItem "i2" "B" 3 None]]}
       ∅ [].

(** The variant documents of the samples: [v1] adds 10 to the price. *)
Definition ex_variants (id : string) : option Variant :=
  if String.eqb id "v1" then Some (mkVariant "v1" (Some 10%float)) else None.

(** The store before and after alice puts two units of the product, in
    variant [v1], into her cart. *)
Definition ex_dbProduct : Db := mkDb {["P" := ex_fifty]} ∅ ∅ [].
Definition ex_addVariant : AddItemBody :=
  mkAddItemBody "P" (NumberValue 2) (Some "v1").
Definition ex_cartVariant : list CartItem :=
  [mkCartItem "i1" "P" 2 (Some "v1")].
Definition ex_dbVariant : Db :=
  mkDb {["P" := ex_fifty]} {["u1" := ex_cartVariant]} ∅ [].

(** An order of alice's in a given status, for two units of A and three
    of B. *)
Definition ex_order (status : string) : Order :=
  let t := totalsOf 80 in
  mkOrder "u1"
    [mkOrderItem "A" 2 None 10; mkOrderItem "B" 3 None 20]
    status (t_subtotal t) (t_discount t) (t_shipping t) (t_tax t) (t_total t)
    None.
Definition ex_dbOrder (status : string) : Db :=
  mkDb {["A" := mkProduct "Belt" 10 5 (Some (MerchantObjectId "m1")) 0 0;
         "B" := mkProduct "Watch" 20 2 (Some (MerchantObjectId "m2")) 0 0]}
       ∅ {["o1" := ex_order status]} [].


(** A cart whose only line for the product carries a variant. *)
Definition ex_dbCartVariant : Db :=
  mkDb {["P" := ex_fifty]}
       {["u1" := [mkCartItem "i1" "P" 1 (Some "v1")]]} ∅ [].

(** A product with a single review (rated 4) by alice, and one with three
    reviews rated 5, 4 and 4. *)
Definition ex_dbReviews : Db :=
  mkDb {["P" := mkProduct "Scarf" 50 5 None 4 1;
         "R" := mkProduct "Ring" 20 9 None (43 # 10) 3]}
       ∅ ∅
       [mkReview "r1" "P" "u1" 4 "fine";
        mkReview "r2" "R" "u1" 5 "";
        mkReview "r3" "R" "u2" 4 "";
        mkReview "r4" "R" "u3" 4 ""].

(** The same reviews after the product P has been deleted
    (DELETE /api/products/:id removes the product document only). *)
Definition ex_dbOrphanReview : Db :=
  withProducts (delete "P" (products ex_dbReviews)) ex_dbReviews.

(** * Properties *)

(** ** Totals *)

(** One item priced 50 at quantity 2 reads subtotal 100, shipping 0, tax 8
    and total 108 on both routes. *)
Example getCart_fifty_twice :
  ∃ items,
    getCart ex_variants ex_dbFifty ex_alice
      = (ex_dbFifty, Ok 200 (items, mkTotals 100 0 0 8 108)).
Proof. eexists. vm_compute. reflexivity. Qed.

Example createOrder_fifty_twice :
  ∃ db' order,
    createOrder "o1" ex_dbFifty ex_alice ex_orderBody = (db', Ok 201 order) ∧
    orderTotals order = mkTotals 100 0 0 8 108.
Proof. eexists _, _. split; vm_compute; reflexivity. Qed.

(** Below the free-shipping threshold the flat rate applies; the sums are
    those of binary64. *)
Example totalsOf_below_threshold :
  totalsOf 99.99 = mkTotals 99.99 0 9.99 7.9992 117.97919999999999.
Proof. vm_compute. reflexivity. Qed.

(** A cart of 0.10 x 1 and 33.30 x 3 adds up, in binary64, to just under
    100, so shipping is charged. *)
Example getCart_just_below_threshold :
  ∃ items,
    getCart ex_variants
      (mkDb {["A" := mkProduct "Pin" 0.1 9 None 0 0;
              "B" := mkProduct "Cap" 33.3 9 None 0 0]}
            {["u1" := [mkCartItem "i1" "A" 1 None; mkCartItem "i2" "B" 3 None]]}
            ∅ [])
      ex_alice
    = (mkDb {["A" := mkProduct "Pin" 0.1 9 None 0 0;
              "B" := mkProduct "Cap" 33.3 9 None 0 0]}
            {["u1" := [mkCartItem "i1" "A" 1 None; mkCartItem "i2" "B" 3 None]]}
            ∅ [],
       Ok 200 (items,
               mkTotals 99.999999999999986 0 9.99 7.9999999999999991
                 117.98999999999998)).
Proof. eexists. vm_compute. reflexivity. Qed.

(** C2. Alice puts two units of a product priced 50, in a variant whose
    priceModifier is 10, into her cart. By the formula the subtotal is
    (50 + 10) x 2 = 120, and GET /api/cart reads subtotal 120, shipping 0,
    tax 9.6, total 129.6; POST /api/orders on the same cart stores subtotal
    100, tax 8 and total 108: the order's totals leave the variant's
    priceModifier out. *)
Theorem C2_order_totals_omit_modifier :
  fst (addCartItem ex_variants "i1" ex_dbProduct ex_alice ex_addVariant)
    = ex_dbVariant ∧
  spec_subtotal (products ex_dbVariant) ex_variants ex_cartVariant = 120%float ∧
  (∃ items,
      getCart ex_variants ex_dbVariant ex_alice
        = (ex_dbVariant, Ok 200 (items, mkTotals 120 0 0 9.6 129.6)) ∧
      spec_totals 120 (mkTotals 120 0 0 9.6 129.6)) ∧
  ∃ db' order,
    createOrder "o1" ex_dbVariant ex_alice ex_orderBody = (db', Ok 201 order) ∧
    orderTotals order = mkTotals 100 0 0 8 108 ∧
    t_subtotal (orderTotals order)
      ≠ spec_subtotal (products ex_dbVariant) ex_variants ex_cartVariant.
Proof.
  split; [vm_compute; reflexivity|].
  split; [vm_compute; reflexivity|].
  split.
  - eexists. split; [vm_compute; reflexivity|].
    repeat split; vm_compute; reflexivity.
  - eexists _, _. split; [vm_compute; reflexivity|].
    split; [vm_compute; reflexivity|].
    vm_compute. intros H. apply (f_equal Prim2SF) in H. vm_compute in H.
    discriminate H.
Qed.

(** ** Order creation *)

Lemma exceedsStock_decrement ps pid p q item :
  0 <= q → ps !! pid = Some p → exceedsStock ps item →
  exceedsStock (<[pid := setStock p (stock p - q)]> ps) item.
Proof.
  intros Hq Hp (k & p0 & p' & Hk & Hl & Hlt).
  destruct (decide (pid = k)) as [->|Hne].
  - exists k, p0, (setStock p (stock p - q)).
    rewrite lookup_insert_eq. repeat split; [exact Hk|]. cbn.
    rewrite Hp in Hl. injection Hl as <-. lia.
  - exists k, p0, p'. rewrite lookup_insert_ne by done. auto.
Qed.

Lemma orderLoop_insufficient (items : list PopulatedItem) :
  ∀ ps s ois,
    Forall (λ item, 0 <= p_quantity item) items →
    Exists (exceedsStock ps) items →
    ∃ ps' status message, orderLoop items ps s ois = Returned ps' status message.
Proof.
  induction items as [|item rest IH]; intros ps s ois Hq Hex.
  - inversion Hex.
  - apply Forall_cons in Hq as [Hq0 Hq]. cbn.
    destruct (p_product item) as [[pid p0]|] eqn:Ei; [|eauto].
    destruct (ps !! pid) as [p|] eqn:Ep; [|eauto].
    destruct (stock p <? p_quantity item) eqn:El; [eauto|].
    apply Z.ltb_ge in El. apply IH; [exact Hq|].
    apply Exists_cons in Hex as [Hhere|Hlater].
    + destruct Hhere as (k & q0 & p' & Hk & Hl & Hlt).
      rewrite Ei in Hk. injection Hk as <- <-.
      rewrite Ep in Hl. injection Hl as <-. lia.
    + eapply Exists_impl; [exact Hlater|].
      intros it Hit. now apply exceedsStock_decrement.
Qed.

(** The part of the stock rule that the handler keeps: a cart (of
    non-negative quantities) with a line that exceeds its product's stock is
    never turned into an order, and the cart stays as it was. *)
Lemma createOrder_insufficient_fails newId db u body items :
  carts db !! u_id u = Some items →
  Forall (λ it, 0 <= quantity it) items →
  Exists (λ it, ∃ p, products db !! product it = Some p ∧ stock p < quantity it)
         items →
  ∃ db' status message,
    createOrder newId db u body = (db', Fail status message) ∧
    orders db' = orders db ∧ carts db' = carts db.
Proof.
  intros Hc Hq Hex. unfold createOrder.
  destruct (negb _ || _); [eauto 6|]. rewrite Hc.
  destruct items as [|it its]; [inversion Hex|].
  edestruct (orderLoop_insufficient
               (map (populateProduct (products db)) (it :: its))
               (products db) 0%float []) as (ps' & st & m & E).
  - apply Forall_map. exact Hq.
  - apply Exists_exists in Hex as (x & Hin & p & Hp & Hlt).
    apply Exists_exists. exists (populateProduct (products db) x). split.
    + apply list_elem_of_In, in_map, list_elem_of_In. exact Hin.
    + exists (product x), p, p. unfold populateProduct; cbn.
      rewrite Hp. auto.
  - rewrite E. eauto 6.
Qed.

(** C1. An order request whose second cart line exceeds its product's stock
    is answered 400 and stores no order, but the stock of the first line's
    product has already been decremented (5 before, 4 after): the failed
    request does mutate stock. *)
Theorem C1_failed_order_keeps_decrement :
  let '(db', response) := createOrder "o1" ex_dbShort ex_alice ex_orderBody in
  response = Fail 400 "Insufficient stock for Watch" ∧
  orders db' = orders ex_dbShort ∧
  stock <$> products ex_dbShort !! "A" = Some 5 ∧
  stock <$> products db' !! "A" = Some 4.
Proof. vm_compute. repeat split. Qed.

(** The order loop never finds a variant document: whatever the cart line
    refers to, the modifier it reads is 0. *)
Lemma populateProduct_modifier ps it :
  variantModifier (p_variant (populateProduct ps it)) = 0%float.
Proof. unfold populateProduct; cbn. destruct (variant it); reflexivity. Qed.

(** C9. Alice's cart holds two units of a product priced 50 in the variant
    [v1], whose priceModifier is 10 (the cart read prices the unit at 60).
    The order is stored with one item that refers to [v1] and records the
    price 50, not 50 + 10 = 60; the subtotal, 100, is that recorded price
    times the quantity. *)
Theorem C9_recorded_price_omits_modifier :
  fst (addCartItem ex_variants "i1" ex_dbProduct ex_alice ex_addVariant)
    = ex_dbVariant ∧
  ∃ db' order item w,
    createOrder "o1" ex_dbVariant ex_alice ex_orderBody = (db', Ok 201 order) ∧
    orders db' !! "o1" = Some order ∧
    o_items order = [item] ∧
    oi_variant item = Some (VariantRef "v1") ∧
    ex_variants "v1" = Some w ∧ priceModifier w = Some 10%float ∧
    price ex_fifty = 50%float ∧ (50 + 10 = 60)%float ∧
    oi_price item = 50%float ∧ oi_price item ≠ 60%float ∧
    o_subtotal order = 100%float ∧
    o_subtotal order = (0 + oi_price item * Number_ofZ (oi_quantity item))%float.
Proof.
  split; [vm_compute; reflexivity|].
  eexists _, _, _, _. split; [vm_compute; reflexivity|].
  split; [vm_compute; reflexivity|].
  split; [reflexivity|].
  split; [reflexivity|].
  split; [vm_compute; reflexivity|].
  split; [reflexivity|].
  split; [reflexivity|].
  split; [vm_compute; reflexivity|].
  split; [reflexivity|].
  split.
  - cbn. intros H. apply (f_equal Prim2SF) in H. vm_compute in H.
    discriminate H.
  - split; vm_compute; reflexivity.
Qed.

(** ** Cancellation *)

Lemma restoreStock_fold (items : list OrderItem) :
  ∀ (ps : gmap string Product) pid,
    fold_left restoreStock items ps !! pid =
    (λ p, setStock p (stock p + orderedQuantity pid items)) <$> ps !! pid.
Proof.
  induction items as [|item rest IH]; intros ps pid; cbn.
  - destruct (ps !! pid) as [p|]; cbn; [|reflexivity].
    f_equal. destruct p; unfold setStock; cbn. f_equal. lia.
  - rewrite IH. unfold restoreStock.
    destruct (String.eqb_spec (oi_product item) pid) as [->|Hne].
    + destruct (ps !! pid) as [p|] eqn:Ep.
      * rewrite lookup_insert_eq. cbn. f_equal.
        unfold setStock, orderedQuantity; cbn. f_equal. lia.
      * rewrite Ep. reflexivity.
    + destruct (ps !! oi_product item) as [p|]; [|reflexivity].
      rewrite lookup_insert_ne by done. reflexivity.
Qed.

Lemma notCancellable_true s :
  notCancellable s = true ↔ s = "cancelled" ∨ s = "delivered" ∨ s = "shipped".
Proof.
  unfold notCancellable; cbn. rewrite !orb_true_iff, !String.eqb_eq.
  intuition discriminate.
Qed.

(** C3, as the handler has it. A cancellation by the order's owner succeeds
    only when the status is none of cancelled, delivered and shipped, and it
    does succeed from pending, confirmed and processing; cancelling a shipped, delivered or cancelled
    order is answered 400 with the store unchanged; a successful
    cancellation sets the status to cancelled and adds to the stock of every
    product exactly the quantity the order's items record for it. *)
Theorem C3_cancel_gate_and_restore :
  (∀ db u id db' st o',
      cancelOrder db u id = (db', Ok st o') →
      ∃ o, orders db !! id = Some o ∧ o_user o = u_id u ∧
           o_status o ≠ "cancelled" ∧ o_status o ≠ "delivered" ∧
           o_status o ≠ "shipped" ∧
           o' = setStatus "cancelled" o ∧ o_status o' = "cancelled" ∧
           orders db' = <[id := o']> (orders db) ∧
           ∀ pid, products db' !! pid =
                  (λ p, setStock p (stock p + orderedQuantity pid (o_items o)))
                    <$> products db !! pid) ∧
  (∀ db u id o,
      orders db !! id = Some o → o_user o = u_id u →
      o_status o = "pending" ∨ o_status o = "confirmed" ∨
        o_status o = "processing" →
      isOk (snd (cancelOrder db u id)) = true) ∧
  (∀ db u id o,
      orders db !! id = Some o → o_user o = u_id u →
      o_status o = "shipped" ∨ o_status o = "delivered" ∨
        o_status o = "cancelled" →
      ∃ message, cancelOrder db u id = (db, Fail 400 message)).
Proof.
  split; [|split].
  - intros db u id db' st o' H. unfold cancelOrder in H.
    destruct (orders db !! id) as [o|] eqn:Eo; [|discriminate].
    destruct (String.eqb_spec (o_user o) (u_id u)) as [Eu|]; cbn [negb] in H;
      [|discriminate H].
    destruct (notCancellable (o_status o)) eqn:En; [discriminate|].
    injection H as <- _ <-. exists o.
    assert (Hn : ¬ (o_status o = "cancelled" ∨ o_status o = "delivered" ∨
                    o_status o = "shipped")).
    { intros Hs. apply notCancellable_true in Hs. congruence. }
    repeat split; try tauto.
    intros pid. cbn. apply restoreStock_fold.
  - intros db u id o Ho Hu Hs. unfold cancelOrder.
    rewrite Ho, Hu, String.eqb_refl.
    destruct Hs as [-> | [-> | ->]]; reflexivity.
  - intros db u id o Ho Hu Hs. unfold cancelOrder.
    rewrite Ho, Hu, String.eqb_refl. cbn [negb].
    assert (En : notCancellable (o_status o) = true).
    { apply notCancellable_true. tauto. }
    rewrite En. eauto.
Qed.

(** C3, counterexample to the claim as written: the owner cancels an order
    whose status is confirmed, not pending, and the request succeeds. *)
Lemma C3_confirmed_order_cancelled :
  o_status <$> orders (ex_dbOrder "confirmed") !! "o1" = Some "confirmed" ∧
  "confirmed" ≠ "pending" ∧
  ∃ db' o', cancelOrder (ex_dbOrder "confirmed") ex_alice "o1" = (db', Ok 200 o') ∧
            o_status o' = "cancelled" ∧
            stock <$> products db' !! "A" = Some 7.
Proof.
  split; [reflexivity|]. split; [discriminate|].
  eexists _, _. split; [vm_compute; reflexivity|]. split; reflexivity.
Qed.

(** C3 on the sample stores. *)
Lemma C3_cancel_gate_and_restore_witness :
  (∃ o, orders (ex_dbOrder "pending") !! "o1" = Some o ∧
        o_status o ≠ "shipped" ∧
        stock <$> products (fst (cancelOrder (ex_dbOrder "pending") ex_alice "o1")) !! "B"
          = Some (2 + orderedQuantity "B" (o_items o))) ∧
  isOk (snd (cancelOrder (ex_dbOrder "pending") ex_alice "o1")) = true ∧
  (∃ message, cancelOrder (ex_dbOrder "shipped") ex_alice "o1"
              = (ex_dbOrder "shipped", Fail 400 message)).
Proof.
  destruct C3_cancel_gate_and_restore as (Hsucc & Hpending & Hreject).
  split; [|split].
  - destruct (cancelOrder (ex_dbOrder "pending") ex_alice "o1")
      as [db' [st o'|st m]] eqn:E.
    + destruct (Hsucc _ _ _ _ _ _ E) as (o & Ho & _ & _ & _ & Hs & _ & _ & _ & Hp).
      exists o. split; [exact Ho|]. split; [exact Hs|].
      cbn. rewrite Hp. reflexivity.
    + vm_compute in E. discriminate E.
  - apply (Hpending _ _ _ (ex_order "pending")); [reflexivity|reflexivity|].
    left. reflexivity.
  - apply (Hreject _ _ _ (ex_order "shipped")); [reflexivity|reflexivity|].
    left. reflexivity.
Defined.

(** ** Status updates *)

Lemma validStatus_In s : validStatus s = true ↔ In s orderStatuses.
Proof.
  unfold validStatus. rewrite existsb_exists. split.
  - intros (x & Hin & Heq). apply String.eqb_eq in Heq. now subst.
  - intros Hin. exists s. split; [exact Hin|apply String.eqb_refl].
Qed.

Lemma productMerchantId_Some p x :
  productMerchantId p = Some x →
  ∃ m, merchant p = Some m ∧ merchantIdOf m = x.
Proof.
  unfold productMerchantId. destruct (merchant p) as [[i|s|o]|]; cbn.
  - intros [= <-]. eauto.
  - destruct (String.eqb s ""); [discriminate|]. intros [= <-]. eauto.
  - intros [= <-]. eauto.
  - discriminate.
Qed.

Lemma noProductOf_hasMerchantProduct ps mid o :
  noProductOf ps mid o → hasMerchantProduct ps mid o = false.
Proof.
  intros Hno. unfold hasMerchantProduct.
  apply not_true_is_false. intros H.
  apply existsb_exists in H as (item & Hin & Hit).
  unfold isMerchantItem in Hit.
  destruct (ps !! oi_product item) as [p|] eqn:Ep; [|discriminate].
  destruct (productMerchantId p) as [x|] eqn:Em; [|discriminate].
  apply String.eqb_eq in Hit. subst x.
  apply productMerchantId_Some in Em as (m & Hm & Hid).
  exact (Hno item p m Hin Ep Hm Hid).
Qed.

(** The order written by a successful status update. *)
Lemma updateOrderStatus_ok db u id body o :
  authorize [RoleAdmin; RoleMerchant] u = true →
  validStatus (b_status body) = true →
  orders db !! id = Some o →
  (role u = RoleMerchant → hasMerchantProduct (products db) (u_id u) o = true) →
  ∃ o', updateOrderStatus db u id body
          = (withOrders (<[id := o']> (orders db)) db, Ok 200 o') ∧
        o_status o' = b_status body.
Proof.
  intros Ha Hv Ho Hm. unfold updateOrderStatus.
  rewrite Ha, Hv, Ho. cbn [negb].
  destruct (role u) eqn:Er; cbn [Role_eqb andb].
  - eexists. split; [reflexivity|]. reflexivity.
  - rewrite Hm by reflexivity. cbn [negb].
    eexists. split; [reflexivity|]. reflexivity.
  - eexists. split; [reflexivity|]. reflexivity.
Qed.

(** C4. For every order and every requested status of the enumeration, an
    authorized status update (an admin, or a merchant with a product in the
    order) succeeds and sets the order's status to the requested value,
    whatever the current status; a requested status outside the enumeration
    is answered 400 and changes nothing. *)
Theorem C4_any_status_from_any_status :
  (∀ db u id body o,
      role u = RoleAdmin ∨
        (role u = RoleMerchant ∧
         hasMerchantProduct (products db) (u_id u) o = true) →
      In (b_status body) orderStatuses →
      orders db !! id = Some o →
      ∃ db' o', updateOrderStatus db u id body = (db', Ok 200 o') ∧
                orders db' !! id = Some o' ∧
                o_status o' = b_status body) ∧
  (∀ db u id body,
      role u = RoleAdmin ∨ role u = RoleMerchant →
      ¬ In (b_status body) orderStatuses →
      ∃ message, updateOrderStatus db u id body = (db, Fail 400 message)).
Proof.
  split.
  - intros db u id body o Hauth Hin Ho.
    destruct (updateOrderStatus_ok db u id body o) as (o' & E & Hs).
    + unfold authorize. destruct Hauth as [->|[-> _]]; reflexivity.
    + now apply validStatus_In.
    + exact Ho.
    + intros Hr. destruct Hauth as [Ha|[_ Hm]]; [congruence|exact Hm].
    + exists (withOrders (<[id := o']> (orders db)) db), o'.
      split; [exact E|]. split; [|exact Hs].
      cbn. apply lookup_insert_eq.
  - intros db u id body Hrole Hnot. unfold updateOrderStatus.
    assert (Ha : authorize [RoleAdmin; RoleMerchant] u = true).
    { unfold authorize. destruct Hrole as [->| ->]; reflexivity. }
    rewrite Ha. cbn [negb].
    destruct (validStatus (b_status body)) eqn:Ev.
    + apply validStatus_In in Ev. contradiction.
    + cbn [negb]. eauto.
Qed.

(** C4 on the sample stores. *)
Lemma C4_any_status_from_any_status_witness :
  (∃ db' o',
      updateOrderStatus (ex_dbOrder "delivered") ex_admin "o1"
        (mkStatusBody "pending" None) = (db', Ok 200 o') ∧
      orders db' !! "o1" = Some o' ∧ o_status o' = "pending") ∧
  (∃ message,
      updateOrderStatus (ex_dbOrder "pending") ex_merchant "o1"
        (mkStatusBody "lost" None) = (ex_dbOrder "pending", Fail 400 message)).
Proof.
  destruct C4_any_status_from_any_status as (Hset & Hreject). split.
  - apply (Hset (ex_dbOrder "delivered") ex_admin "o1"
             (mkStatusBody "pending" None) (ex_order "delivered")).
    + left. reflexivity.
    + cbn. tauto.
    + reflexivity.
  - apply (Hreject (ex_dbOrder "pending") ex_merchant "o1"
             (mkStatusBody "lost" None)).
    + right. reflexivity.
    + cbn. intros H. repeat destruct H as [H|H]; try discriminate H. exact H.
Defined.

(** C7. A merchant's status update on an existing order none of whose items
    references a product whose merchant is that merchant is never
    successful and leaves the store as it was, and with a valid status it is
    answered 403; an admin's status update on an existing order is never
    answered 403, and with a valid status it succeeds. *)
Theorem C7_merchant_ownership :
  (∀ db u id body o,
      role u = RoleMerchant → orders db !! id = Some o →
      noProductOf (products db) (u_id u) o →
      (∃ status message,
          updateOrderStatus db u id body = (db, Fail status message)) ∧
      (In (b_status body) orderStatuses →
       ∃ message, updateOrderStatus db u id body = (db, Fail 403 message))) ∧
  (∀ db u id body o,
      role u = RoleAdmin → orders db !! id = Some o →
      statusOf (snd (updateOrderStatus db u id body)) ≠ 403 ∧
      (In (b_status body) orderStatuses →
       isOk (snd (updateOrderStatus db u id body)) = true)).
Proof.
  split.
  - intros db u id body o Hr Ho Hno.
    apply noProductOf_hasMerchantProduct in Hno.
    unfold updateOrderStatus, authorize. rewrite Hr. cbn [existsb Role_eqb orb negb].
    destruct (validStatus (b_status body)) eqn:Ev; cbn [negb].
    + rewrite Ho, Hno. cbn [negb andb]. split; eauto.
    + split; [eauto|]. intros Hin. apply validStatus_In in Hin. congruence.
  - intros db u id body o Hr Ho.
    unfold updateOrderStatus, authorize. rewrite Hr. cbn [existsb Role_eqb orb negb].
    destruct (validStatus (b_status body)) eqn:Ev; cbn [negb].
    + rewrite Ho. cbn [andb]. split; [cbn; lia|reflexivity].
    + split; [cbn; lia|]. intros Hin. apply validStatus_In in Hin. congruence.
Qed.

(** C7 on the sample stores. *)
Lemma C7_merchant_ownership_witness :
  (∃ message,
      updateOrderStatus (ex_dbOrder "pending") (mkUser "m3" RoleMerchant) "o1"
        (mkStatusBody "shipped" None) = (ex_dbOrder "pending", Fail 403 message)) ∧
  isOk (snd (updateOrderStatus (ex_dbOrder "pending") ex_admin "o1"
               (mkStatusBody "shipped" None))) = true.
Proof.
  destruct C7_merchant_ownership as (Hmerchant & Hadmin). split.
  - apply (Hmerchant (ex_dbOrder "pending") (mkUser "m3" RoleMerchant) "o1"
             (mkStatusBody "shipped" None) (ex_order "pending")).
    + reflexivity.
    + reflexivity.
    + intros item p m Hin Hp Hm Hid. cbn in Hin.
      destruct Hin as [<-|[<-|[]]]; vm_compute in Hp;
        injection Hp as <-; injection Hm as <-; discriminate Hid.
    + cbn. tauto.
  - apply (Hadmin (ex_dbOrder "pending") ex_admin "o1"
             (mkStatusBody "shipped" None) (ex_order "pending")).
    + reflexivity.
    + reflexivity.
    + cbn. tauto.
Defined.

(** ** Cart lines *)

Lemma findIndex_Some {A} (f : A → bool) (l : list A) :
  ∀ i, findIndex f l = Some i →
       ∃ l1 x l2, l = l1 ++ x :: l2 ∧ length l1 = i ∧ f x = true ∧
                  Forall (λ y, f y = false) l1.
Proof.
  induction l as [|a l IH]; intros i H; cbn in H; [discriminate|].
  destruct (f a) eqn:Ea.
  - injection H as <-. exists [], a, l. repeat split; auto.
  - destruct (findIndex f l) as [j|]; [|discriminate].
    injection H as <-.
    destruct (IH j eq_refl) as (l1 & x & l2 & -> & <- & Hx & Hl1).
    exists (a :: l1), x, l2. repeat split; auto.
Qed.

Lemma findIndex_None {A} (f : A → bool) (l : list A) :
  findIndex f l = None → Forall (λ y, f y = false) l.
Proof.
  induction l as [|a l IH]; cbn; intros H; [constructor|].
  destruct (f a) eqn:Ea; [discriminate|].
  destruct (findIndex f l); [discriminate|]. constructor; auto.
Qed.



Lemma insert_middle {A} (y : A) (l1 : list A) x l2 :
  <[length l1 := y]> (l1 ++ x :: l2) = l1 ++ y :: l2.
Proof. induction l1 as [|a l1 IH]; cbn; [reflexivity|]. now f_equal. Qed.

Lemma lookup_middle {A} (l1 : list A) x l2 :
  (l1 ++ x :: l2) !! length l1 = Some x.
Proof. induction l1 as [|a l1 IH]; cbn; [reflexivity|exact IH]. Qed.


(** ** Body values *)

Lemma isInt_Some min v n :
  isInt min v = Some n → toNumber v = Some n ∧ min <= n.
Proof.
  unfold isInt. destruct (toNumber v) as [m|]; [|discriminate].
  destruct (min <=? m) eqn:E; [|discriminate].
  intros [= <-]. apply Z.leb_le in E. auto.
Qed.

Lemma isInt_number min k : min <= k → isInt min (NumberValue k) = Some k.
Proof. intros H. unfold isInt; cbn. apply Z.leb_le in H. now rewrite H. Qed.

(** On a urlencoded body, [quantity += '2'] on a line of 1 stores 12, on a
    line of 2 stores 22; a signed string does not cast back. *)
Example plusAssign_concatenates :
  plusAssign 1 (StringValue "2") = Some 12 ∧
  plusAssign 2 (StringValue "2") = Some 22 ∧
  plusAssign 1 (NumberValue 2) = Some 3 ∧
  isInt 1 (StringValue "+2") = Some 2 ∧
  plusAssign 1 (StringValue "+2") = None.
Proof. repeat split. Qed.

(** ** Cart lines *)

(** What a successful POST /api/cart/items has checked and stored. *)
Lemma addCartItem_ok pv newId db u body db' st data :
  addCartItem pv newId db u body = (db', Ok st data) →
  ∃ n p items',
    isInt 1 (b_quantity body) = Some n ∧
    products db !! productId body = Some p ∧
    n <= stock p ∧
    products db' = products db ∧
    mergeOrPush newId body n (default [] (carts db !! u_id u)) = Some items' ∧
    carts db' !! u_id u = Some items'.
Proof.
  unfold addCartItem. intros H.
  destruct (String.eqb (productId body) ""); [discriminate H|].
  destruct (isInt 1 (b_quantity body)) as [n|] eqn:Ev; [|discriminate H].
  destruct (products db !! productId body) as [p|] eqn:Ep; [|discriminate H].
  destruct (stock p <? n) eqn:Es; [discriminate H|].
  apply Z.ltb_ge in Es.
  destruct (mergeOrPush newId body n _) as [items'|] eqn:Em; [|discriminate H].
  injection H as <- _ _.
  exists n, p, items'. repeat split; auto. cbn. apply lookup_insert_eq.
Qed.





(** The two ways the merge-or-push step can go through. *)
Lemma mergeOrPush_Some newId body n items items' :
  mergeOrPush newId body n items = Some items' →
  (∃ l1 x l2 q',
      items = l1 ++ x :: l2 ∧
      Forall (λ y, sameLine (productId body) (b_variant body) y = false) l1 ∧
      sameLine (productId body) (b_variant body) x = true ∧
      plusAssign (quantity x) (b_quantity body) = Some q' ∧
      items' = l1 ++ setQuantity q' x :: l2) ∨
  (Forall (λ y, sameLine (productId body) (b_variant body) y = false) items ∧
   items' = items ++ [mkCartItem newId (productId body) n
                        (if truthy (b_variant body) then b_variant body
                         else None)]).
Proof.
  unfold mergeOrPush. intros H.
  destruct (findIndex _ items) as [i|] eqn:Ei.
  - left. apply findIndex_Some in Ei as (l1 & x & l2 & -> & <- & Hx & Hl1).
    rewrite lookup_middle in H. cbn in H. unfold addQuantity in H.
    destruct (plusAssign (quantity x) (b_quantity body)) as [q'|] eqn:Eq;
      [|discriminate H].
    cbn in H. injection H as <-. rewrite insert_middle.
    exists l1, x, l2, q'. auto.
  - right. apply findIndex_None in Ei. injection H as <-. auto.
Qed.

(** A request without variant looks at the product only. *)
Lemma sameLine_falsy pid v item :
  truthy v = false → sameLine pid v item = String.eqb (product item) pid.
Proof.
  intros Et. unfold sameLine. rewrite Et. cbn. apply andb_true_r.
Qed.



(** ** One line per (product, variant) pair *)

(** A line of the named pair is accepted by the merge predicate. *)
Lemma key_sameLine pid v item :
  lineKey item = requestKey pid v → sameLine pid v item = true.
Proof.
  unfold lineKey, requestKey, sameLine. intros [= Hp Hv].
  rewrite Hp, String.eqb_refl. cbn [andb].
  destruct (truthy v) eqn:Et; cbn [negb orb]; [|reflexivity].
  rewrite Hv. destruct v as [s|]; [apply String.eqb_refl|discriminate Et].
Qed.

(** The pair of a pushed line is the pair the request names. *)
Lemma pushed_key newId pid n v :
  lineKey (mkCartItem newId pid n (if truthy v then v else None))
  = requestKey pid v.
Proof. reflexivity. Qed.

Lemma firstLineOf_first pid l1 x l2 :
  Forall (λ y, product y ≠ pid) l1 → product x = pid →
  firstLineOf pid (l1 ++ x :: l2) = Some x.
Proof.
  intros Hl1 Hx. unfold firstLineOf.
  induction Hl1 as [|a l1 Ha _ IH]; cbn.
  - now rewrite bool_decide_eq_true_2.
  - now rewrite bool_decide_eq_false_2.
Qed.

(** The line the merge predicate picks first is a line of the pair the
    request names. *)
Lemma firstLine_target pid v l1 x l2 :
  firstLineAgrees pid v (l1 ++ x :: l2) →
  Forall (λ y, sameLine pid v y = false) l1 → sameLine pid v x = true →
  lineKey x = requestKey pid v.
Proof.
  intros Hag Hl1 Hx. unfold lineKey, requestKey.
  destruct (truthy v) eqn:Et.
  - unfold sameLine in Hx. rewrite Et in Hx. cbn [negb orb] in Hx.
    apply andb_true_iff in Hx as [Hp Hv]. apply String.eqb_eq in Hp.
    destruct (variant x) as [w|], v as [s|]; try discriminate Hv.
    apply String.eqb_eq in Hv. congruence.
  - destruct Hag as [Ht|Hfirst]; [congruence|].
    rewrite sameLine_falsy in Hx by exact Et. apply String.eqb_eq in Hx.
    rewrite (Hfirst x), Hx; [reflexivity|].
    apply firstLineOf_first; [|exact Hx].
    eapply Forall_impl; [exact Hl1|]. intros y Hy. cbv beta in Hy.
    rewrite sameLine_falsy in Hy by exact Et. now apply String.eqb_neq.
Qed.

Lemma linesOf_app k l1 l2 : linesOf k (l1 ++ l2) = linesOf k l1 ++ linesOf k l2.
Proof. unfold linesOf. apply List.filter_app. Qed.

Lemma linesOf_none k items :
  (∀ item, item ∈ items → lineKey item ≠ k) → linesOf k items = [].
Proof.
  induction items as [|a items IH]; intros H; [reflexivity|].
  unfold linesOf; cbn. rewrite bool_decide_eq_false_2.
  - apply IH. intros item Hin. apply H. now right.
  - apply H. now left.
Qed.

Lemma linesOf_hit k item : lineKey item = k → linesOf k [item] = [item].
Proof. intros H. unfold linesOf; cbn. now rewrite bool_decide_eq_true_2. Qed.

(** The pair named by a request after the merge-or-push step: its one line
    is the earlier line with the quantity [+=] left in it, or a new line of
    exactly the requested quantity. *)
Lemma mergeOrPush_lines newId body n items items' :
  mergeOrPush newId body n items = Some items' →
  firstLineAgrees (productId body) (b_variant body) items →
  NoDup (lineKey <$> items) →
  let k := requestKey (productId body) (b_variant body) in
  (∃ line q', linesOf k items = [line] ∧
              plusAssign (quantity line) (b_quantity body) = Some q' ∧
              linesOf k items' = [setQuantity q' line]) ∨
  (linesOf k items = [] ∧
   ∃ line, linesOf k items' = [line] ∧ quantity line = n).
Proof.
  intros Hm Hag Hnd k.
  apply mergeOrPush_Some in Hm
    as [(l1 & x & l2 & q' & -> & Hl1 & Hx & Hq & ->)|(Hnone & ->)].
  - left.
    assert (Hkx : lineKey x = k) by (eapply firstLine_target; eauto).
    rewrite fmap_app, fmap_cons in Hnd.
    apply NoDup_app in Hnd as (_ & Hcross & Hnd2).
    apply NoDup_cons in Hnd2 as [Hnotin _].
    assert (H1 : linesOf k l1 = []).
    { apply linesOf_none. intros item Hin Hk.
      apply (Hcross (lineKey item)).
      - apply list_elem_of_fmap. eauto.
      - rewrite Hk, <- Hkx. now left. }
    assert (H2 : linesOf k l2 = []).
    { apply linesOf_none. intros item Hin Hk. apply Hnotin.
      rewrite Hkx, <- Hk. apply list_elem_of_fmap. eauto. }
    exists x, q'.
    rewrite !linesOf_app, H1.
    change (x :: l2) with ([x] ++ l2).
    change (setQuantity q' x :: l2) with ([setQuantity q' x] ++ l2).
    rewrite !linesOf_app, H2, !linesOf_hit by assumption.
    auto.
  - right.
    assert (H0 : linesOf k items = []).
    { apply linesOf_none. intros item Hin Hk.
      apply key_sameLine in Hk.
      rewrite Forall_forall in Hnone. rewrite (Hnone item Hin) in Hk.
      discriminate Hk. }
    split; [exact H0|]. eexists. rewrite linesOf_app, H0, linesOf_hit.
    + split; reflexivity.
    + apply pushed_key.
Qed.

(** The merge-or-push step never gives a pair a second line. *)
Lemma mergeOrPush_NoDup newId body n items items' :
  mergeOrPush newId body n items = Some items' →
  NoDup (lineKey <$> items) → NoDup (lineKey <$> items').
Proof.
  intros Hm Hnd.
  apply mergeOrPush_Some in Hm
    as [(l1 & x & l2 & q' & -> & _ & _ & _ & ->)|(Hnone & ->)].
  - rewrite fmap_app, fmap_cons in *. exact Hnd.
  - rewrite fmap_app. apply NoDup_app.
    split; [exact Hnd|]. split; [|apply NoDup_singleton].
    intros key Hin Hnew. apply list_elem_of_fmap in Hin as (item & -> & Hin).
    apply list_elem_of_singleton in Hnew. rewrite pushed_key in Hnew.
    apply key_sameLine in Hnew.
    rewrite Forall_forall in Hnone. rewrite (Hnone item Hin) in Hnew.
    discriminate Hnew.
Qed.

(** After the step the product's first line is still a line of the pair. *)
Lemma mergeOrPush_firstLine newId body n items items' :
  mergeOrPush newId body n items = Some items' →
  firstLineAgrees (productId body) (b_variant body) items →
  firstLineAgrees (productId body) (b_variant body) items'.
Proof.
  intros Hm Hag.
  destruct (truthy (b_variant body)) eqn:Et; [left; exact Et|].
  right. intros line Hfirst.
  assert (Hpid : ∀ l, Forall (λ y, sameLine (productId body) (b_variant body) y
                                   = false) l →
                      Forall (λ y, product y ≠ productId body) l).
  { intros l Hl. eapply Forall_impl; [exact Hl|]. intros y Hy. cbv beta in Hy.
    rewrite sameLine_falsy in Hy by exact Et. now apply String.eqb_neq. }
  apply mergeOrPush_Some in Hm
    as [(l1 & x & l2 & q' & -> & Hl1 & Hx & _ & ->)|(Hnone & ->)].
  - pose proof (firstLine_target _ _ _ _ _ Hag Hl1 Hx) as Hk.
    rewrite sameLine_falsy in Hx by exact Et. apply String.eqb_eq in Hx.
    rewrite firstLineOf_first in Hfirst; [|now apply Hpid|exact Hx].
    injection Hfirst as <-. unfold lineKey, requestKey in Hk.
    rewrite Et in Hk. cbn. congruence.
  - rewrite firstLineOf_first in Hfirst; [|now apply Hpid|reflexivity].
    injection Hfirst as <-. cbn. now rewrite Et.
Qed.

(** With a JSON number in the body the step adds that number to the
    quantity of the pair, which then has exactly one line. *)
Lemma mergeOrPush_quantity newId body k items items' :
  b_quantity body = NumberValue k →
  mergeOrPush newId body k items = Some items' →
  firstLineAgrees (productId body) (b_variant body) items →
  NoDup (lineKey <$> items) →
  let key := requestKey (productId body) (b_variant body) in
  length (linesOf key items') = 1%nat ∧
  quantityOf key items' = quantityOf key items + k.
Proof.
  intros Hk Hm Hag Hnd key.
  destruct (mergeOrPush_lines _ _ _ _ _ Hm Hag Hnd)
    as [(line & q' & H0 & Hq & H1)|(H0 & line & H1 & Hq)];
    fold key in H0, H1; unfold quantityOf; rewrite H0, H1; cbn; split;
    try reflexivity.
  - rewrite Hk in Hq. injection Hq as <-. lia.
  - lia.
Qed.

(** C6, as the handler has it. Two successful POST /api/cart/items requests
    with JSON-number quantities naming the same (productId, variant) pair,
    where the requests carry a variant or the first line of the cart for
    that product, if there is one, carries none, leave exactly one line for
    the pair, and the pair's quantity is what it was before plus the two
    requested quantities; and a successful add never gives a cart in which
    every pair has one line a second line for any pair. *)
Theorem C6_one_line_per_pair :
  (∀ pv n1 n2 db u b1 b2 k1 k2 db1 st1 d1 db2 st2 d2,
      b_quantity b1 = NumberValue k1 → b_quantity b2 = NumberValue k2 →
      addCartItem pv n1 db u b1 = (db1, Ok st1 d1) →
      addCartItem pv n2 db1 u b2 = (db2, Ok st2 d2) →
      productId b2 = productId b1 → b_variant b2 = b_variant b1 →
      NoDup (lineKey <$> default [] (carts db !! u_id u)) →
      firstLineAgrees (productId b1) (b_variant b1)
        (default [] (carts db !! u_id u)) →
      ∃ items2,
        carts db2 !! u_id u = Some items2 ∧
        length (linesOf (requestKey (productId b1) (b_variant b1)) items2)
          = 1%nat ∧
        quantityOf (requestKey (productId b1) (b_variant b1)) items2
          = quantityOf (requestKey (productId b1) (b_variant b1))
              (default [] (carts db !! u_id u))
            + k1 + k2) ∧
  (∀ pv newId db u body db' st data,
      addCartItem pv newId db u body = (db', Ok st data) →
      NoDup (lineKey <$> default [] (carts db !! u_id u)) →
      ∃ items', carts db' !! u_id u = Some items' ∧ NoDup (lineKey <$> items')).
Proof.
  split.
  - intros pv n1 n2 db u b1 b2 k1 k2 db1 st1 d1 db2 st2 d2 Hk1 Hk2 H1 H2
      Hp Hv Hnd Hag.
    apply addCartItem_ok in H1 as (m1 & _ & items1 & Hn1 & _ & _ & _ & Hm1 & Hc1).
    apply addCartItem_ok in H2 as (m2 & _ & items2 & Hn2 & _ & _ & _ & Hm2 & Hc2).
    rewrite Hk1 in Hn1. apply isInt_Some in Hn1 as [[= <-] _].
    rewrite Hk2 in Hn2. apply isInt_Some in Hn2 as [[= <-] _].
    rewrite Hc1 in Hm2.
    change (default [] (Some items1)) with items1 in Hm2.
    set (items := default [] (carts db !! u_id u)) in *.
    destruct (mergeOrPush_quantity _ _ _ _ _ Hk1 Hm1 Hag Hnd) as [_ Hq1].
    pose proof (mergeOrPush_firstLine _ _ _ _ _ Hm1 Hag) as Hag1.
    pose proof (mergeOrPush_NoDup _ _ _ _ _ Hm1 Hnd) as Hnd1.
    rewrite <- Hp, <- Hv in Hag1.
    destruct (mergeOrPush_quantity _ _ _ _ _ Hk2 Hm2 Hag1 Hnd1) as [Hlen Hq2].
    rewrite Hp, Hv in Hlen, Hq2.
    exists items2. split; [exact Hc2|]. split; [exact Hlen|].
    rewrite Hq2, Hq1. reflexivity.
  - intros pv newId db u body db' st data H Hnd.
    apply addCartItem_ok in H as (n & _ & items' & _ & _ & _ & _ & Hm & Hc).
    exists items'. split; [exact Hc|]. eapply mergeOrPush_NoDup; eauto.
Qed.

(** C6, counterexample to the claim as written: on a cart whose line for
    the product carries a variant, two successful variant-less adds of 2
    leave no line for the (product, no variant) pair; the quantities went
    to the variant's line, which now holds 5. *)
Lemma C6_variantless_adds_leave_no_line :
  ∃ db1 d1 db2 d2 items2,
    addCartItem ex_variants "i2" ex_dbCartVariant ex_alice
      (mkAddItemBody "P" (NumberValue 2) None) = (db1, Ok 200 d1) ∧
    addCartItem ex_variants "i3" db1 ex_alice
      (mkAddItemBody "P" (NumberValue 2) None) = (db2, Ok 200 d2) ∧
    carts db2 !! "u1" = Some items2 ∧
    items2 = [mkCartItem "i1" "P" 5 (Some "v1")] ∧
    linesOf ("P", None) items2 = [].
Proof.
  eexists _, _, _, _, _. split; [vm_compute; reflexivity|].
  split; [vm_compute; reflexivity|].
  split; [vm_compute; reflexivity|].
  split; [reflexivity|]. vm_compute. reflexivity.
Qed.

(** C6 on the sample stores: a variant-less pair next to a line that
    carries a variant, and a pair with a variant. *)
Lemma C6_one_line_per_pair_witness :
  (∃ items2,
      carts (fst (addCartItem ex_variants "i4"
                    (fst (addCartItem ex_variants "i3"
                            (mkDb {["P" := ex_fifty]}
                               {["u1" := [mkCartItem "i1" "P" 1 None;
                                          mkCartItem "i2" "P" 1 (Some "v1")]]}
                               ∅ [])
                            ex_alice (mkAddItemBody "P" (NumberValue 2) None)))
                    ex_alice (mkAddItemBody "P" (NumberValue 1) None))) !! "u1"
        = Some items2 ∧
      length (linesOf ("P", None) items2) = 1%nat ∧
      quantityOf ("P", None) items2 = 4) ∧
  (∃ items2,
      carts (fst (addCartItem ex_variants "i3"
                    (fst (addCartItem ex_variants "i2" ex_dbCartVariant ex_alice
                            (mkAddItemBody "P" (NumberValue 2) (Some "v2"))))
                    ex_alice (mkAddItemBody "P" (NumberValue 1) (Some "v2"))))
        !! "u1"
        = Some items2 ∧
      length (linesOf ("P", Some "v2") items2) = 1%nat ∧
      quantityOf ("P", Some "v2") items2 = 3).
Proof.
  destruct C6_one_line_per_pair as (Htwice & _). split.
  - destruct (addCartItem ex_variants "i3" _ ex_alice
                (mkAddItemBody "P" (NumberValue 2) None))
      as [db1 [st1 d1|st1 m1]] eqn:E1; [|vm_compute in E1; discriminate E1].
    cbn [fst].
    destruct (addCartItem ex_variants "i4" db1 ex_alice
                (mkAddItemBody "P" (NumberValue 1) None))
      as [db2 [st2 d2|st2 m2]] eqn:E2.
    + cbn [fst].
      destruct (Htwice ex_variants "i3" "i4" _ ex_alice
                  (mkAddItemBody "P" (NumberValue 2) None)
                  (mkAddItemBody "P" (NumberValue 1) None)
                  2 1 _ _ _ _ _ _ eq_refl eq_refl E1 E2)
        as (items2 & Hc & Hlen & Hq).
      * reflexivity.
      * reflexivity.
      * vm_compute. apply NoDup_cons. split.
        -- intros H. apply list_elem_of_singleton in H. discriminate H.
        -- apply NoDup_singleton.
      * right. intros line H. vm_compute in H. injection H as <-. reflexivity.
      * exists items2. split; [exact Hc|]. split; [exact Hlen|].
        etransitivity; [exact Hq|]. reflexivity.
    + vm_compute in E1. injection E1 as <- _ _.
      vm_compute in E2. discriminate E2.
  - destruct (addCartItem ex_variants "i2" ex_dbCartVariant ex_alice
                (mkAddItemBody "P" (NumberValue 2) (Some "v2")))
      as [db1 [st1 d1|st1 m1]] eqn:E1; [|vm_compute in E1; discriminate E1].
    cbn [fst].
    destruct (addCartItem ex_variants "i3" db1 ex_alice
                (mkAddItemBody "P" (NumberValue 1) (Some "v2")))
      as [db2 [st2 d2|st2 m2]] eqn:E2.
    + cbn [fst].
      destruct (Htwice ex_variants "i2" "i3" _ ex_alice
                  (mkAddItemBody "P" (NumberValue 2) (Some "v2"))
                  (mkAddItemBody "P" (NumberValue 1) (Some "v2"))
                  2 1 _ _ _ _ _ _ eq_refl eq_refl E1 E2)
        as (items2 & Hc & Hlen & Hq).
      * reflexivity.
      * reflexivity.
      * vm_compute. apply NoDup_singleton.
      * left. reflexivity.
      * exists items2. split; [exact Hc|]. split; [exact Hlen|].
        etransitivity; [exact Hq|]. reflexivity.
    + vm_compute in E1. injection E1 as <- _ _.
      vm_compute in E2. discriminate E2.
Defined.

(** ** Review aggregate *)

Lemma Math_round_bounds (x : Q) :
  (x - (1 # 2) < inject_Z (Math_round x))%Q ∧
  (inject_Z (Math_round x) <= x + (1 # 2))%Q.
Proof.
  unfold Math_round.
  pose proof (Qfloor_le (x + (1 # 2))) as Hlo.
  pose proof (Qlt_floor (x + (1 # 2))) as Hhi.
  rewrite inject_Z_plus in Hhi.
  change (inject_Z 1) with 1%Q in Hhi.
  split; lra.
Qed.

Example Math_round_half_up :
  Math_round (5 # 2) = 3 ∧ Math_round (- (5 # 2)) = -2 ∧
  Math_round (433 # 10) = 43.
Proof. repeat split. Qed.

Lemma rounded_tenths (x : Q) :
  roundedTo1 (inject_Z (Math_round (x * 10)) / 10) x.
Proof.
  exists (Math_round (x * 10)). split; [reflexivity|].
  destruct (Math_round_bounds (x * 10)) as [Hlo Hhi].
  unfold Qdiv. change (/ 10)%Q with (1 # 10)%Q.
  split; lra.
Qed.

(** The reviews [Review.find] returns for a product carry the ratings
    stored for it, in order. *)
Lemma reviewsOf_ratings pid rs :
  r_rating <$> reviewsOf pid rs = spec_ratings pid rs.
Proof.
  unfold reviewsOf. induction rs as [|r rs IH]; cbn; [reflexivity|].
  destruct (String.eqb_spec (r_product r) pid) as [E|E].
  - rewrite decide_True by exact E. cbn. now f_equal.
  - rewrite decide_False by exact E. exact IH.
Qed.

Lemma totalRating_from (rs : list Review) :
  ∀ a, fold_left (λ sum review, sum + r_rating review) rs a
       = a + fold_right Z.add 0 (r_rating <$> rs).
Proof.
  induction rs as [|r rs IH]; intros a; cbn; [lia|]. rewrite IH. lia.
Qed.

Lemma updateProductRating_reviews pid db :
  reviews (updateProductRating pid db) = reviews db.
Proof.
  unfold updateProductRating.
  destruct (length (reviewsOf pid (reviews db)) =? 0)%nat; reflexivity.
Qed.

(** [updateProductRating] leaves the product with the aggregate of the
    reviews stored for it. *)
Lemma updateProductRating_spec pid db :
  ratingRecomputed pid (updateProductRating pid db).
Proof.
  intros p Hp ratings. subst ratings. rewrite updateProductRating_reviews.
  rewrite <- reviewsOf_ratings.
  unfold updateProductRating in Hp.
  destruct (reviewsOf pid (reviews db)) as [|r rs] eqn:Ers;
    cbn [length Nat.eqb products withProducts] in Hp.
  - unfold findByIdAndUpdateRating in Hp. rewrite lookup_alter_eq in Hp.
    destruct (products db !! pid) as [p0|]; [|discriminate Hp].
    injection Hp as <-. cbn. repeat split; congruence.
  - unfold findByIdAndUpdateRating in Hp. rewrite lookup_alter_eq in Hp.
    destruct (products db !! pid) as [p0|]; [|discriminate Hp].
    injection Hp as <-. cbn [reviewCount rating setRating].
    split; [now rewrite length_fmap|]. split; [discriminate|]. intros _.
    unfold totalRating. rewrite totalRating_from, Z.add_0_l.
    unfold spec_mean. rewrite length_fmap.
    apply (rounded_tenths
             (inject_Z (fold_right Z.add 0 (r_rating <$> r :: rs))
              / inject_Z (Z.of_nat (length (r :: rs))))).
Qed.

(** Three reviews rated 5, 4 and 4: the mean 4.33... is stored as 4.3. *)
Example updateProductRating_three_reviews :
  ∃ p, products (updateProductRating "R" ex_dbReviews) !! "R" = Some p ∧
       (rating p == 43 # 10)%Q ∧ reviewCount p = 3.
Proof. eexists. split; [vm_compute; reflexivity|]. split; reflexivity. Qed.

Lemma updateProductRating_exists pid db k :
  is_Some (products (updateProductRating pid db) !! k) ↔
  is_Some (products db !! k).
Proof.
  unfold updateProductRating.
  destruct (length _ =? 0)%nat; cbn; unfold findByIdAndUpdateRating;
    rewrite lookup_alter; case_decide; subst;
    rewrite ?is_Some_alt; destruct (products db !! k); cbn; tauto.
Qed.

Lemma delete_middle {A} (l1 : list A) x l2 :
  delete (length l1) (l1 ++ x :: l2) = l1 ++ l2.
Proof. induction l1 as [|a l1 IH]; cbn; [reflexivity|]. now f_equal. Qed.

Lemma findReview_found pid uid (rs : list Review) r :
  r ∈ rs → r_product r = pid → r_user r = uid →
  ∃ r', findReview pid uid rs = Some r'.
Proof.
  intros Hin Hp Hu. unfold findReview.
  destruct (find _ rs) as [r'|] eqn:E; [eauto|].
  apply find_none with (x := r) in E; [|now apply list_elem_of_In].
  rewrite Hp, Hu, !String.eqb_refl in E. discriminate E.
Qed.

(** What a successful POST /api/reviews has checked and stored. *)
Lemma createReview_ok newId db u body db' st r :
  createReview newId db u body = (db', Ok st r) →
  is_Some (products db !! rb_productId body) ∧
  findReview (rb_productId body) (u_id u) (reviews db) = None ∧
  r_product r = rb_productId body ∧ r_user r = u_id u ∧
  r_rating r = rb_rating body ∧
  db' = updateProductRating (r_product r) (withReviews (reviews db ++ [r]) db).
Proof.
  unfold createReview. intros H.
  destruct (String.eqb (rb_productId body) "" || _); [discriminate H|].
  destruct (products db !! rb_productId body) as [p|] eqn:Ep; [|discriminate H].
  destruct (findReview _ _ _) eqn:Ef; [discriminate H|].
  injection H as <- _ <-. cbn. auto 10.
Qed.

(** What a successful PUT /api/reviews/:id has checked and stored. *)
Lemma updateReview_ok db u id body db' st r' :
  updateReview db u id body = (db', Ok st r') →
  ∃ l1 r l2,
    reviews db = l1 ++ r :: l2 ∧ r_id r = id ∧ r_user r = u_id u ∧
    r' = applyUpdate body r ∧ r_product r' = r_product r ∧
    db' = updateProductRating (r_product r') (withReviews (l1 ++ r' :: l2) db).
Proof.
  unfold updateReview. intros H.
  destruct (match ru_rating body with Some _ => _ | None => _ end);
    [discriminate H|].
  destruct (findIndex _ (reviews db)) as [i|] eqn:Ei; [|discriminate H].
  apply findIndex_Some in Ei as (l1 & r & l2 & Hrs & <- & Hid & _).
  rewrite Hrs, lookup_middle in H.
  destruct (String.eqb_spec (r_user r) (u_id u)) as [Hu|]; cbn [negb] in H;
    [|discriminate H].
  injection H as <- _ <-. rewrite insert_middle.
  apply String.eqb_eq in Hid. exists l1, r, l2. auto 10.
Qed.

(** What a successful DELETE /api/reviews/:id has checked and removed. *)
Lemma deleteReview_ok db u id db' st x :
  deleteReview db u id = (db', Ok st x) →
  ∃ l1 r l2,
    reviews db = l1 ++ r :: l2 ∧ r_id r = id ∧ r_user r = u_id u ∧
    db' = updateProductRating (r_product r) (withReviews (l1 ++ l2) db).
Proof.
  unfold deleteReview. intros H.
  destruct (findIndex _ (reviews db)) as [i|] eqn:Ei; [|discriminate H].
  apply findIndex_Some in Ei as (l1 & r & l2 & Hrs & <- & Hid & _).
  rewrite Hrs, lookup_middle in H.
  destruct (String.eqb_spec (r_user r) (u_id u)) as [Hu|]; cbn [negb] in H;
    [|discriminate H].
  injection H as <- _ _. rewrite delete_middle.
  apply String.eqb_eq in Hid. exists l1, r, l2. auto.
Qed.

Lemma spec_ratings_app pid l1 l2 :
  spec_ratings pid (l1 ++ l2) = spec_ratings pid l1 ++ spec_ratings pid l2.
Proof.
  induction l1 as [|r l1 IH]; cbn; [reflexivity|].
  destruct (decide (r_product r = pid)); cbn; now rewrite IH.
Qed.

(** Removing the only review of a product leaves it without reviews. *)
Lemma spec_ratings_only l1 r l2 :
  length (spec_ratings (r_product r) (l1 ++ r :: l2)) = 1%nat →
  spec_ratings (r_product r) (l1 ++ l2) = [].
Proof.
  rewrite !spec_ratings_app. cbn [spec_ratings].
  rewrite decide_True by reflexivity.
  rewrite length_app. cbn [length]. intros H.
  destruct (spec_ratings (r_product r) l1), (spec_ratings (r_product r) l2);
    cbn in H; try lia. reflexivity.
Qed.

(** C8, as the handlers have it. Creating a review for a (product, user)
    pair that already has one is rejected and stores nothing: with 400
    while the product exists, with 404 once the product has been deleted;
    after every successful create, update or delete of a review its product
    carries reviewCount = the number of its reviews and rating = their mean
    rounded to one decimal place; and deleting the only review of a product
    leaves it with rating 0 and reviewCount 0. *)
Theorem C8_review_aggregate :
  (∀ newId db u body r,
      r ∈ reviews db → r_product r = rb_productId body → r_user r = u_id u →
      (∃ st m, createReview newId db u body = (db, Fail st m)) ∧
      (is_Some (products db !! rb_productId body) →
       ∃ m, createReview newId db u body = (db, Fail 400 m)) ∧
      (products db !! rb_productId body = None →
       rb_productId body ≠ "" → 1 <= rb_rating body <= 5 →
       ∃ m, createReview newId db u body = (db, Fail 404 m))) ∧
  (∀ newId db u body db' st r,
      createReview newId db u body = (db', Ok st r) →
      reviews db' = reviews db ++ [r] ∧
      is_Some (products db' !! r_product r) ∧
      ratingRecomputed (r_product r) db') ∧
  (∀ db u id body db' st r',
      updateReview db u id body = (db', Ok st r') →
      r' ∈ reviews db' ∧ ratingRecomputed (r_product r') db') ∧
  (∀ db u id db' st x,
      deleteReview db u id = (db', Ok st x) →
      ∃ l1 r l2,
        reviews db = l1 ++ r :: l2 ∧ r_id r = id ∧ reviews db' = l1 ++ l2 ∧
        ratingRecomputed (r_product r) db' ∧
        (length (spec_ratings (r_product r) (reviews db)) = 1%nat →
         ∀ p, products db' !! r_product r = Some p →
              rating p = 0%Q ∧ reviewCount p = 0)).
Proof.
  split; [|split; [|split]].
  - intros newId db u body r Hin Hp Hu.
    destruct (findReview_found _ _ _ _ Hin Hp Hu) as (r' & Hf).
    unfold createReview.
    destruct (String.eqb_spec (rb_productId body) "") as [He|He]; cbn [orb].
    { split; [eauto|]. split; [eauto|]. intros _ Hne. contradiction. }
    destruct ((1 <=? rb_rating body) && (rb_rating body <=? 5)) eqn:Ev;
      cbn [negb].
    + destruct (products db !! rb_productId body) as [p|] eqn:Ep.
      * rewrite Hf. split; [eauto|]. split; [eauto|]. discriminate.
      * split; [eauto|]. split; [intros [? [=]]|]. eauto.
    + split; [eauto|]. split; [eauto|]. intros _ _ [H1 H5].
      apply Z.leb_le in H1, H5. rewrite H1, H5 in Ev. discriminate Ev.
  - intros newId db u body db' st r H.
    apply createReview_ok in H as (Hex & _ & Hp & _ & _ & ->).
    rewrite updateProductRating_reviews. split; [reflexivity|]. split.
    + apply updateProductRating_exists. cbn. now rewrite Hp.
    + apply updateProductRating_spec.
  - intros db u id body db' st r' H.
    apply updateReview_ok in H as (l1 & r & l2 & Hrs & _ & _ & _ & _ & ->).
    rewrite updateProductRating_reviews. split.
    + cbn. apply elem_of_app. right. now left.
    + apply updateProductRating_spec.
  - intros db u id db' st x H.
    apply deleteReview_ok in H as (l1 & r & l2 & Hrs & Hid & _ & ->).
    exists l1, r, l2. rewrite updateProductRating_reviews.
    split; [exact Hrs|]. split; [exact Hid|]. split; [reflexivity|].
    split; [apply updateProductRating_spec|].
    intros Honly p Hp. rewrite Hrs in Honly. apply spec_ratings_only in Honly.
    destruct (updateProductRating_spec _ _ p Hp) as (Hcount & Hzero & _).
    rewrite updateProductRating_reviews in Hcount, Hzero.
    cbn [reviews withReviews] in Hcount, Hzero. rewrite Honly in Hcount, Hzero.
    split; [now apply Hzero|exact Hcount].
Qed.

(** C8, counterexample to the claim as written: alice has reviewed the
    product P, which has since been deleted; her second review of it is
    answered 404, not 400. *)
Lemma C8_duplicate_on_deleted_product_is_404 :
  mkReview "r1" "P" "u1" 4 "fine" ∈ reviews ex_dbOrphanReview ∧
  products ex_dbOrphanReview !! "P" = None ∧
  createReview "r9" ex_dbOrphanReview ex_alice (mkReviewBody "P" 5 None)
    = (ex_dbOrphanReview, Fail 404 "Product not found") ∧
  404 ≠ 400.
Proof.
  split; [left|]. split; [reflexivity|]. split; [|discriminate].
  vm_compute. reflexivity.
Qed.

(** C8 on the sample stores: alice's second review of P is answered 400;
    bob's review of P, rated 5 next to alice's 4, leaves P with rating 4.5
    and reviewCount 2; carol's review of R, rated 2 next to 5, 4 and 4,
    leaves R with rating 3.8 (the mean is 3.75) and reviewCount 4; deleting
    alice's review, the only one of P, leaves P with 0 and 0. *)
Lemma C8_review_aggregate_witness :
  (∃ m, createReview "r9" ex_dbReviews ex_alice (mkReviewBody "P" 5 None)
        = (ex_dbReviews, Fail 400 m)) ∧
  (let db' := fst (createReview "r9" ex_dbReviews ex_bob
                     (mkReviewBody "P" 5 None)) in
   ratingRecomputed "P" db' ∧
   spec_ratings "P" (reviews db') = [4; 5] ∧
   ∃ p, products db' !! "P" = Some p ∧
        (rating p == 45 # 10)%Q ∧ reviewCount p = 2) ∧
  (let db' := fst (createReview "r9" ex_dbReviews (mkUser "u4" RoleUser)
                     (mkReviewBody "R" 2 None)) in
   ratingRecomputed "R" db' ∧
   spec_ratings "R" (reviews db') = [5; 4; 4; 2] ∧
   ∃ p, products db' !! "R" = Some p ∧
        (rating p == 38 # 10)%Q ∧ reviewCount p = 4) ∧
  (∃ p, products (fst (deleteReview ex_dbReviews ex_alice "r1")) !! "P" = Some p ∧
        rating p = 0%Q ∧ reviewCount p = 0).
Proof.
  destruct C8_review_aggregate as (Hdup & Hcreate & _ & Hdelete).
  split; [|split; [|split]].
  - apply (Hdup "r9" ex_dbReviews ex_alice (mkReviewBody "P" 5 None)
             (mkReview "r1" "P" "u1" 4 "fine")).
    + left.
    + reflexivity.
    + reflexivity.
    + vm_compute. eauto.
  - destruct (createReview "r9" ex_dbReviews ex_bob (mkReviewBody "P" 5 None))
      as [db' [st r|st m]] eqn:E.
    + destruct (Hcreate _ _ _ _ _ _ _ E) as (_ & _ & Hr).
      vm_compute in E. injection E as <- _ <-. cbn [fst].
      split; [exact Hr|]. split; [reflexivity|].
      eexists. split; [vm_compute; reflexivity|]. split; reflexivity.
    + vm_compute in E. discriminate E.
  - destruct (createReview "r9" ex_dbReviews (mkUser "u4" RoleUser)
                (mkReviewBody "R" 2 None))
      as [db' [st r|st m]] eqn:E.
    + destruct (Hcreate _ _ _ _ _ _ _ E) as (_ & _ & Hr).
      vm_compute in E. injection E as <- _ <-. cbn [fst].
      split; [exact Hr|]. split; [reflexivity|].
      eexists. split; [vm_compute; reflexivity|]. split; reflexivity.
    + vm_compute in E. discriminate E.
  - destruct (deleteReview ex_dbReviews ex_alice "r1")
      as [db' [st x|st m]] eqn:E.
    + destruct (Hdelete _ _ _ _ _ _ E) as (l1 & r & l2 & Hrs & Hid & _ & _ & Honly).
      assert (Hr : r = mkReview "r1" "P" "u1" 4 "fine").
      { destruct l1 as [|a l1]; [injection Hrs as <- _; reflexivity|].
        exfalso. injection Hrs as <- Hrs.
        destruct l1 as [|b l1]; [injection Hrs as <- _; discriminate Hid|].
        injection Hrs as _ Hrs.
        destruct l1 as [|c l1]; [injection Hrs as <- _; discriminate Hid|].
        injection Hrs as _ Hrs.
        destruct l1 as [|d l1]; [injection Hrs as <- _; discriminate Hid|].
        injection Hrs as _ Hrs. destruct l1; discriminate Hrs. }
      subst r. cbn [fst].
      assert (Hp : is_Some (products db' !! "P")).
      { vm_compute in E. injection E as <- _. vm_compute. eauto. }
      destruct Hp as [p Hp]. exists p. split; [exact Hp|].
      apply Honly; [reflexivity|exact Hp].
    + vm_compute in E. discriminate E.
Defined.
